(** * researchGPT front end: the root view, the sidebar and the group modal

    A shallow embedding of the client-side state management of the
    research-paper assistant: [frontend/app/page.tsx] (component [Home]),
    [components/PaperSidebar.tsx] (the upload handlers) and
    [components/GroupModal.tsx] ([togglePaper]).

    Conventions of the embedding.
    - A React state variable is a field of a state record; a setter call is an
      effect in the trace of the handler that makes it, applied to the
      component state in program order.
    - An [async] handler is a computation in the monad [Async]: it emits a
      trace of effects (state updates, network requests, log lines) and either
      returns a value or throws.  [try]/[catch]/[finally] are combinators.
    - What the network answers is an input of the handler ([Outcome]): the
      promise of [fetch] rejects, or resolves with a status and a body.
    - Response bodies that parse are taken at the TypeScript interfaces the
      source declares for them.
    - A request is recorded with the path that follows [API_BASE] and with the
      JSON value handed to [JSON.stringify]. *)

From Stdlib Require Import ZArith List Ascii String Bool Lia.
From Stdlib Require Import DecimalString DecimalPos DecimalZ.
Import ListNotations.
Open Scope string_scope.
Open Scope list_scope.
Open Scope Z_scope.

Set Implicit Arguments.
#[local] Set Warnings "-register-all".

(** ** JavaScript values used by the handlers *)

(** The value given to [JSON.stringify]; a member whose value is [undefined]
    is left out of the object, as [JSON.stringify] does. *)
Inductive Json : Type :=
| JNull
| JNumber (n : Z)
| JString (s : string)
| JArray (items : list Json)
| JObject (members : list (string * Json)).

(** The values of the members of an object, in order. *)
Definition values (j : Json) : list Json :=
  match j with
  | JObject ms => map snd ms
  | _ => []
  end.

(** Lookup of a member by key (first occurrence). *)
Fixpoint assoc (k : string) (ms : list (string * Json)) : option Json :=
  match ms with
  | [] => None
  | (k', v) :: rest => if String.eqb k k' then Some v else assoc k rest
  end.

Definition member (k : string) (j : Json) : option Json :=
  match j with
  | JObject ms => assoc k ms
  | _ => None
  end.

(** [x || null] on a possibly missing string, rendered as JSON: the empty
    string is falsy. *)
Definition or_null (x : option string) : Json :=
  match x with
  | Some s => if String.eqb s "" then JNull else JString s
  | None => JNull
  end.

(** [x || d] on a possibly missing string. *)
Definition or_default (x : option string) (d : string) : string :=
  match x with
  | Some s => if String.eqb s "" then d else s
  | None => d
  end.

(** [n.toString()] for an integer. *)
Definition toString (n : Z) : string := NilZero.string_of_int (Z.to_int n).

(** ** Data model ([page.tsx], the exported interfaces) *)

Module Paper.
Record t : Type := mk {
  paper_id : string;
  filename : string;
  title : option string;
  upload_date : string;
  total_pages : Z;
  total_chunks : Z
}.
End Paper.

Module Citation.
Record t : Type := mk {
  paper_id : string;
  page : Z;
  section : string;
  chunk_preview : string
}.
End Citation.

Inductive Role : Type := user | assistant.

Module Message.
Record t : Type := mk {
  id : string;
  role : Role;
  content : string;
  citations : option (list Citation.t);
  mode : option string;
  timestamp : Z
}.
End Message.

Module PaperGroup.
Record t : Type := mk {
  group_id : string;
  name : string;
  description : option string;
  paper_ids : list string;
  created_date : string
}.
End PaperGroup.

(** ['academic' | 'simple' | 'eli5'] *)
Inductive Mode : Type := academic | simple | eli5.

Definition mode_string (m : Mode) : string :=
  match m with
  | academic => "academic"
  | simple => "simple"
  | eli5 => "eli5"
  end.

(** A browser [File]: its name and its MIME type. *)
Record File : Type := mkFile {
  file_name : string;
  file_type : string
}.

(** ** Requests and what the network answers *)

Inductive Method : Type := GET | POST | DELETE.

Inductive Body : Type :=
| NoBody
| JsonBody (j : Json)
| FormData (fields : list (string * File)).

Record Request : Type := mkRequest {
  path : string;
  method : Method;
  headers : list (string * string);
  body : Body
}.

(** A thrown JavaScript [Error]. *)
Record Error : Type := mkError { message : string }.

Inductive result (A : Type) : Type :=
| Ok (a : A)
| Throw (e : Error).
Arguments Ok {A} a.
Arguments Throw {A} e.

(** A resolved [Response]: the status line and what [res.json()] gives
    (it rejects when the body is not JSON). *)
Record Response (A : Type) : Type := mkResponse {
  status : Z;
  json_body : result A
}.

(** [res.ok]: the status is in the range 200-299. *)
Definition ok {A} (res : Response A) : bool :=
  (200 <=? status res) && (status res <=? 299).

(** What a [fetch] call comes to. *)
Inductive Outcome (A : Type) : Type :=
| Rejected (e : Error)
| Responded (res : Response A).
Arguments Rejected {A} e.
Arguments Responded {A} res.

(** The bodies the handlers read. *)
Record PapersData : Type := { data_papers : option (list Paper.t) }.
Record GroupsData : Type := { data_groups : option (list PaperGroup.t) }.
Record ErrorData : Type := { detail : option string }.
Record AskData : Type := {
  answer : string;
  data_citations : option (list Citation.t);
  data_mode : option string
}.

(** ** Effects of a handler *)

Inductive Effect : Type :=
| Fetch (req : Request)
| ConsoleError (label : string)
(* setters of Home *)
| SetPapers (ps : list Paper.t)
| SetSelectedPaper (p : option Paper.t)
| SetGroups (gs : list PaperGroup.t)
| SetSelectedGroup (g : option PaperGroup.t)
| AppendMessage (m : Message.t)       (* setMessages(prev => [...prev, m]) *)
| SetIsLoading (b : bool)
| SetMode (m : Mode)
| SetSidebarOpen (b : bool)
(* setters of PaperSidebar *)
| SetIsDragging (b : bool)
| SetUploadProgress (p : option string)
| SetError (e : option string)
| SetShowGroupModal (b : bool)
| SetTimeout (callback : Effect) (ms : Z).

Definition Trace : Type := list Effect.

(** ** The monad of asynchronous handlers *)

Definition Async (A : Type) : Type := (Trace * result A)%type.

Definition ret {A} (a : A) : Async A := ([], Ok a).

Definition bind {A B} (m : Async A) (k : A -> Async B) : Async B :=
  match m with
  | (t, Ok a) => let (t', r) := k a in (t ++ t', r)
  | (t, Throw e) => (t, Throw e)
  end.

Definition throw {A} (e : Error) : Async A := ([], Throw e).

Definition emit (e : Effect) : Async unit := ([e], Ok tt).

(** [try { m } catch (error) { h error }] *)
Definition try_catch {A} (m : Async A) (h : Error -> Async A) : Async A :=
  match m with
  | (t, Ok a) => (t, Ok a)
  | (t, Throw e) => let (t', r) := h e in (t ++ t', r)
  end.

(** [try { m } finally { f }]: [f] runs on every exit; the result of [m]
    stands unless [f] itself throws. *)
Definition finally {A} (m : Async A) (f : Async unit) : Async A :=
  let (t, r) := m in
  match f with
  | (t', Ok _) => (t ++ t', r)
  | (t', Throw e) => (t ++ t', Throw e)
  end.

Declare Scope async_scope.
Delimit Scope async_scope with async.
Notation "x <- m ;; k" := (bind m (fun x => k))
  (at level 61, m at next level, right associativity) : async_scope.
Notation "m ;; k" := (bind m (fun _ => k))
  (at level 61, right associativity) : async_scope.
Open Scope async_scope.

(** [await fetch(url, init)] *)
Definition fetch {A} (req : Request) (o : Outcome A) : Async (Response A) :=
  emit (Fetch req) ;;
  match o with
  | Rejected e => throw e
  | Responded res => ret res
  end.

(** [await res.json()] *)
Definition json {A} (res : Response A) : Async A := ([], json_body res).

Definition trace {A} (m : Async A) : Trace := fst m.

(** The requests of a trace, in the order they are issued. *)
Fixpoint requests (t : Trace) : list Request :=
  match t with
  | [] => []
  | Fetch r :: rest => r :: requests rest
  | _ :: rest => requests rest
  end.

(** ** The root view ([page.tsx], component [Home]) *)

Module Home.

(** The [useState] variables of the component. *)
Record State : Type := mkState {
  papers : list Paper.t;
  selectedPaper : option Paper.t;
  groups : list PaperGroup.t;
  selectedGroup : option PaperGroup.t;
  messages : list Message.t;
  isLoading : bool;
  mode : Mode;
  sidebarOpen : bool
}.

(** The initial values given to [useState]. *)
Definition initial : State :=
  {| papers := []; selectedPaper := None; groups := []; selectedGroup := None;
     messages := []; isLoading := false; mode := academic; sidebarOpen := true |}.

(** One setter call; effects that are not setters of [Home] leave its state
    alone. *)
Definition apply (st : State) (e : Effect) : State :=
  match e with
  | SetPapers ps =>
      mkState ps (selectedPaper st) (groups st) (selectedGroup st)
              (messages st) (isLoading st) (mode st) (sidebarOpen st)
  | SetSelectedPaper p =>
      mkState (papers st) p (groups st) (selectedGroup st)
              (messages st) (isLoading st) (mode st) (sidebarOpen st)
  | SetGroups gs =>
      mkState (papers st) (selectedPaper st) gs (selectedGroup st)
              (messages st) (isLoading st) (mode st) (sidebarOpen st)
  | SetSelectedGroup g =>
      mkState (papers st) (selectedPaper st) (groups st) g
              (messages st) (isLoading st) (mode st) (sidebarOpen st)
  | AppendMessage m =>
      mkState (papers st) (selectedPaper st) (groups st) (selectedGroup st)
              (messages st ++ [m]) (isLoading st) (mode st) (sidebarOpen st)
  | SetIsLoading b =>
      mkState (papers st) (selectedPaper st) (groups st) (selectedGroup st)
              (messages st) b (mode st) (sidebarOpen st)
  | SetMode m =>
      mkState (papers st) (selectedPaper st) (groups st) (selectedGroup st)
              (messages st) (isLoading st) m (sidebarOpen st)
  | SetSidebarOpen b =>
      mkState (papers st) (selectedPaper st) (groups st) (selectedGroup st)
              (messages st) (isLoading st) (mode st) b
  | _ => st
  end.

(** The state after the setter calls of a trace, in program order. *)
Definition run (t : Trace) (st : State) : State := fold_left apply t st.

(** What the form-driven handlers return: [{ success, error? }]. *)
Record OpResult : Type := mkResult {
  success : bool;
  error : option string
}.

Definition json_headers : list (string * string) :=
  [("Content-Type", "application/json")].

(** A member that [JSON.stringify] writes only when the value is defined. *)
Definition optional_member (k : string) (v : option string)
  : list (string * Json) :=
  match v with
  | Some s => [(k, JString s)]
  | None => []
  end.

Definition fetchPapers (o : Outcome PapersData) : Async unit :=
  try_catch
    (res <- fetch (mkRequest "/list_papers" GET [] NoBody) o ;;
     if negb (ok res) then ret tt
     else
       data <- json res ;;
       emit (SetPapers (match data_papers data with
                        | Some ps => ps
                        | None => []
                        end)))
    (fun _ => emit (ConsoleError "Failed to fetch papers:")).

Definition fetchGroups (o : Outcome GroupsData) : Async unit :=
  try_catch
    (res <- fetch (mkRequest "/groups" GET [] NoBody) o ;;
     if negb (ok res) then ret tt
     else
       data <- json res ;;
       emit (SetGroups (match data_groups data with
                        | Some gs => gs
                        | None => []
                        end)))
    (fun _ => emit (ConsoleError "Failed to fetch groups:")).

Definition createGroup (name : string) (description : option string)
    (paperIds : list string)
    (post : Outcome ErrorData) (refetch : Outcome GroupsData)
  : Async OpResult :=
  try_catch
    (res <- fetch (mkRequest "/groups" POST json_headers
                    (JsonBody (JObject
                       ([("name", JString name)]
                        ++ optional_member "description" description
                        ++ [("paper_ids", JArray (map JString paperIds))]))))
                  post ;;
     (if negb (ok res) then
        err <- json res ;;
        throw (mkError (or_default (detail err) "Failed to create group"))
      else ret tt) ;;
     fetchGroups refetch ;;
     ret (mkResult true None))
    (fun e =>
       emit (ConsoleError "Failed to create group:") ;;
       ret (mkResult false (Some (message e)))).

(** [selectedGroup?.group_id === groupId] *)
Definition selectedGroup_is (st : State) (groupId : string) : bool :=
  match selectedGroup st with
  | Some g => String.eqb (PaperGroup.group_id g) groupId
  | None => false
  end.

(** [selectedPaper?.paper_id === paperId] *)
Definition selectedPaper_is (st : State) (paperId : string) : bool :=
  match selectedPaper st with
  | Some p => String.eqb (Paper.paper_id p) paperId
  | None => false
  end.

(** [st] is the render the handler closes over. *)
Definition deleteGroup (st : State) (groupId : string)
    (del : Outcome unit) (refetch : Outcome GroupsData) : Async unit :=
  try_catch
    (res <- fetch (mkRequest ("/groups/" ++ groupId)%string DELETE [] NoBody)
                  del ;;
     if negb (ok res) then
       emit (ConsoleError "Delete group failed with status:")
     else
       fetchGroups refetch ;;
       if selectedGroup_is st groupId then emit (SetSelectedGroup None)
       else ret tt)
    (fun _ => emit (ConsoleError "Delete group failed:")).

Definition addPapersToGroup (groupId : string) (paperIds : list string)
    (post : Outcome unit) (refetch : Outcome GroupsData) : Async OpResult :=
  try_catch
    (res <- fetch (mkRequest ("/groups/" ++ groupId ++ "/papers")%string POST
                    json_headers (JsonBody (JArray (map JString paperIds))))
                  post ;;
     (if negb (ok res) then
        throw (mkError "Failed to add papers to group")
      else ret tt) ;;
     fetchGroups refetch ;;
     ret (mkResult true None))
    (fun e =>
       emit (ConsoleError "Failed to add papers to group:") ;;
       ret (mkResult false (Some (message e)))).

Definition uploadPaper (file : File)
    (post : Outcome ErrorData) (refetch : Outcome PapersData)
  : Async OpResult :=
  let formData := FormData [("file", file)] in
  finally
    (try_catch
       (emit (SetIsLoading true) ;;
        res <- fetch (mkRequest "/upload_paper" POST [] formData) post ;;
        (if negb (ok res) then
           err <- json res ;;
           throw (mkError (or_default (detail err) "Upload failed"))
         else ret tt) ;;
        fetchPapers refetch ;;
        ret (mkResult true None))
       (fun e =>
          emit (ConsoleError "Upload failed:") ;;
          ret (mkResult false (Some (message e)))))
    (emit (SetIsLoading false)).

Definition deletePaper (st : State) (paperId : string)
    (del : Outcome unit) (refetch : Outcome PapersData) : Async unit :=
  try_catch
    (res <- fetch (mkRequest ("/delete_paper/" ++ paperId)%string DELETE []
                    NoBody) del ;;
     if negb (ok res) then
       emit (ConsoleError "Delete failed with status:")
     else
       fetchPapers refetch ;;
       if selectedPaper_is st paperId then emit (SetSelectedPaper None)
       else ret tt)
    (fun _ => emit (ConsoleError "Delete failed:")).

(** The readings of the clock during one [askQuestion]: [Date.now()] and
    [new Date()] for the user message, then for the reply. *)
Record Clock : Type := mkClock {
  now_user : Z;
  date_user : Z;
  now_reply : Z;
  date_reply : Z
}.

Definition apology : string :=
  "Sorry, I encountered an error processing your question. Please try again.".

Definition userMessage (question : string) (c : Clock) : Message.t :=
  Message.mk (toString (now_user c)) user question None None (date_user c).

Definition assistantMessage (data : AskData) (c : Clock) : Message.t :=
  Message.mk (toString (now_reply c + 1)) assistant (answer data)
             (data_citations data) (data_mode data) (date_reply c).

Definition errorMessage (c : Clock) : Message.t :=
  Message.mk (toString (now_reply c + 1)) assistant apology None None
             (date_reply c).

(** The object given to [JSON.stringify] in [askQuestion]. *)
Definition ask_body (st : State) (question : string) : Json :=
  JObject
    [("question", JString question);
     ("paper_id", or_null (option_map Paper.paper_id (selectedPaper st)));
     ("group_id", or_null (option_map PaperGroup.group_id (selectedGroup st)));
     ("mode", JString (mode_string (mode st)));
     ("top_k", JNumber 5)].

(** [st] is the render the handler closes over. *)
Definition askQuestion (st : State) (question : string) (c : Clock)
    (o : Outcome AskData) : Async unit :=
  emit (AppendMessage (userMessage question c)) ;;
  emit (SetIsLoading true) ;;
  finally
    (try_catch
       (let paper_ids :=
          match selectedGroup st with
          | Some g => Some (PaperGroup.paper_ids g)
          | None => None
          end in
        res <- fetch (mkRequest "/ask_question" POST json_headers
                        (JsonBody (ask_body st question))) o ;;
        (if negb (ok res) then throw (mkError "Failed to get answer")
         else ret tt) ;;
        data <- json res ;;
        emit (AppendMessage (assistantMessage data c)))
       (fun _ =>
          emit (ConsoleError "Question failed:") ;;
          emit (AppendMessage (errorMessage c))))
    (emit (SetIsLoading false)).

(** The inline callbacks passed to the children. *)
Definition onSelectPaper (paper : option Paper.t) : Async unit :=
  emit (SetSelectedPaper paper) ;;
  emit (SetSelectedGroup None).

Definition onSelectGroup (group : option PaperGroup.t) : Async unit :=
  emit (SetSelectedGroup group) ;;
  emit (SetSelectedPaper None).

Definition toggleSidebar (st : State) : Async unit :=
  emit (SetSidebarOpen (negb (sidebarOpen st))).

(** *** The component as a transition system *)

(** One user action or mount effect, run to completion, with what the
    network answered to each request it may issue. *)
Inductive Event : Type :=
| FetchPapers (o : Outcome PapersData)
| FetchGroups (o : Outcome GroupsData)
| CreateGroup (name : string) (description : option string)
              (paperIds : list string)
              (post : Outcome ErrorData) (refetch : Outcome GroupsData)
| DeleteGroup (groupId : string)
              (del : Outcome unit) (refetch : Outcome GroupsData)
| AddPapersToGroup (groupId : string) (paperIds : list string)
                   (post : Outcome unit) (refetch : Outcome GroupsData)
| UploadPaper (file : File)
              (post : Outcome ErrorData) (refetch : Outcome PapersData)
| DeletePaper (paperId : string)
              (del : Outcome unit) (refetch : Outcome PapersData)
| AskQuestion (question : string) (c : Clock) (o : Outcome AskData)
| SelectPaper (paper : option Paper.t)
| SelectGroup (group : option PaperGroup.t)
| ChooseMode (m : Mode)
| ToggleSidebar.

(** The trace of the handler of an event, called in render [st]. *)
Definition handle (st : State) (ev : Event) : Trace :=
  match ev with
  | FetchPapers o => trace (fetchPapers o)
  | FetchGroups o => trace (fetchGroups o)
  | CreateGroup n d ids post refetch => trace (createGroup n d ids post refetch)
  | DeleteGroup gid del refetch => trace (deleteGroup st gid del refetch)
  | AddPapersToGroup gid ids post refetch =>
      trace (addPapersToGroup gid ids post refetch)
  | UploadPaper f post refetch => trace (uploadPaper f post refetch)
  | DeletePaper pid del refetch => trace (deletePaper st pid del refetch)
  | AskQuestion q c o => trace (askQuestion st q c o)
  | SelectPaper p => trace (onSelectPaper p)
  | SelectGroup g => trace (onSelectGroup g)
  | ChooseMode m => [SetMode m]
  | ToggleSidebar => trace (toggleSidebar st)
  end.

Definition step (st : State) (ev : Event) : State := run (handle st ev) st.

(** The states the component can be in: the initial one and those a
    sequence of events leads to. *)
Inductive reachable : State -> Prop :=
| reachable_initial : reachable initial
| reachable_step st ev : reachable st -> reachable (step st ev).

End Home.

(** ** The chat panel ([components/ChatInterface.tsx]) *)

Module ChatInterface.

(** The guard of [handleSubmit] ([input.trim() && !isLoading]), which is
    also the negation of the [disabled] property of the submit button;
    [trimmed] is [input.trim()]. *)
Definition canSubmit (trimmed : string) (isLoading : bool) : bool :=
  negb (String.eqb trimmed "") && negb isLoading.

Section Handlers.

(** [String.prototype.trim], and the [onSendMessage] property. *)
Variable trim : string -> string.
Variable onSendMessage : string -> Async unit.

(** [handleSubmit], called with the [input] state and the [isLoading]
    property of the render; it returns the [input] state it leaves. *)
Definition handleSubmit (input : string) (isLoading : bool) : Async string :=
  if canSubmit (trim input) isLoading then
    onSendMessage (trim input) ;;
    ret ""
  else ret input.

End Handlers.

End ChatInterface.

(** ** The header ([components/Header.tsx]) *)

Module Header.

Record ModeButton : Type := mkButton {
  id : Mode;
  label : string;
  icon : string
}.

(** The constant [modes]. *)
Definition modes : list ModeButton :=
  [ mkButton academic "Academic" "📚";
    mkButton simple "Simple" "💡";
    mkButton eli5 "ELI5" "🧒" ].

(** [mode === m.id], on the strings the union type stands for. *)
Definition isActive (mode : Mode) (m : ModeButton) : bool :=
  String.eqb (mode_string mode) (mode_string (id m)).

(** [onClick={() => setMode(m.id)}] *)
Definition onClick (m : ModeButton) : Async unit := emit (SetMode (id m)).

End Header.

(** ** The sidebar ([components/PaperSidebar.tsx]) *)

Module PaperSidebar.

Record State : Type := mkState {
  isDragging : bool;
  uploadProgress : option string;
  error : option string;
  showGroupModal : bool
}.

Definition initial : State :=
  {| isDragging := false; uploadProgress := None; error := None;
     showGroupModal := false |}.

(** One setter call of the sidebar; a timer only schedules its callback. *)
Definition apply (st : State) (e : Effect) : State :=
  match e with
  | SetIsDragging b =>
      mkState b (uploadProgress st) (error st) (showGroupModal st)
  | SetUploadProgress p =>
      mkState (isDragging st) p (error st) (showGroupModal st)
  | SetError m =>
      mkState (isDragging st) (uploadProgress st) m (showGroupModal st)
  | SetShowGroupModal b =>
      mkState (isDragging st) (uploadProgress st) (error st) b
  | _ => st
  end.

Definition run (t : Trace) (st : State) : State := fold_left apply t st.

(** [{error && <p>...</p>}]: the message is rendered when it is a non-empty
    string. *)
Definition errorShown (st : State) : bool :=
  match error st with
  | Some m => negb (String.eqb m "")
  | None => false
  end.

Section Handlers.

(** The [onUpload] property. *)
Variable onUpload : File -> Async Home.OpResult.

Definition handleFileUpload (file : File) : Async unit :=
  emit (SetUploadProgress (Some "Processing...")) ;;
  emit (SetError None) ;;
  result <- onUpload file ;;
  if Home.success result then
    emit (SetUploadProgress (Some "✓ Success!")) ;;
    emit (SetTimeout (SetUploadProgress None) 2000)
  else
    emit (SetError (Some (or_default (Home.error result) "Upload failed"))) ;;
    emit (SetUploadProgress None).

(** [file] is [e.dataTransfer.files[0]]. *)
Definition handleDrop (file : option File) : Async unit :=
  emit (SetIsDragging false) ;;
  emit (SetError None) ;;
  match file with
  | Some f =>
      if String.eqb (file_type f) "application/pdf" then handleFileUpload f
      else emit (SetError (Some "Please upload a PDF file"))
  | None => emit (SetError (Some "Please upload a PDF file"))
  end.

(** [file] is [e.target.files?.[0]]. *)
Definition handleFileSelect (file : option File) : Async unit :=
  match file with
  | Some f => handleFileUpload f
  | None => ret tt
  end.

End Handlers.

End PaperSidebar.

(** ** The group form ([components/GroupModal.tsx]) *)

Module GroupModal.

(** [prev.includes(paperId)] *)
Definition includes (prev : list string) (paperId : string) : bool :=
  existsb (String.eqb paperId) prev.

(** The updater [togglePaper] gives to [setSelectedPaperIds]. *)
Definition togglePaper (prev : list string) (paperId : string) : list string :=
  if includes prev paperId
  then filter (fun id => negb (String.eqb id paperId)) prev
  else prev ++ [paperId].

(** The [useState] variables of the form. *)
Record State : Type := mkState {
  name : string;
  description : string;
  selectedPaperIds : list string;
  isSubmitting : bool;
  error : string
}.

(** The initial values: those of [existingGroup] when there is one. *)
Definition initial (existingGroup : option PaperGroup.t) : State :=
  {| name := or_default (option_map PaperGroup.name existingGroup) "";
     description :=
       or_default (match existingGroup with
                   | Some g => PaperGroup.description g
                   | None => None
                   end) "";
     selectedPaperIds :=
       match existingGroup with
       | Some g => PaperGroup.paper_ids g
       | None => []
       end;
     isSubmitting := false;
     error := "" |}.

(** The check box of a paper: [onChange={() => togglePaper(paper.paper_id)}]. *)
Definition onToggle (st : State) (paperId : string) : State :=
  mkState (name st) (description st)
          (togglePaper (selectedPaperIds st) paperId)
          (isSubmitting st) (error st).

Section Handlers.

(** [String.prototype.trim], and the [onCreateGroup] and [onClose]
    properties. *)
Variable trim : string -> string.
Variable onCreateGroup :
  string -> option string -> list string -> Async Home.OpResult.
Variable onClose : Async unit.

(** [description.trim() || undefined] *)
Definition description_argument (st : State) : option string :=
  if String.eqb (trim (description st)) "" then None
  else Some (trim (description st)).

(** [handleSubmit], called in the render with form state [st]; it returns
    the form state it leaves.  The effects of the trace are those of the two
    callbacks. *)
Definition handleSubmit (st : State) : Async State :=
  let st1 :=
    mkState (name st) (description st) (selectedPaperIds st)
            (isSubmitting st) "" in
  if String.eqb (trim (name st)) "" then
    ret (mkState (name st1) (description st1) (selectedPaperIds st1)
                 (isSubmitting st1) "Group name is required")
  else
    let st2 :=
      mkState (name st1) (description st1) (selectedPaperIds st1) true
              (error st1) in
    result <- onCreateGroup (trim (name st)) (description_argument st)
                            (selectedPaperIds st) ;;
    let st3 :=
      mkState (name st2) (description st2) (selectedPaperIds st2) false
              (error st2) in
    if Home.success result then
      onClose ;;
      ret (mkState "" "" [] (isSubmitting st3) (error st3))
    else
      ret (mkState (name st3) (description st3) (selectedPaperIds st3)
                   (isSubmitting st3)
                   (or_default (Home.error result) "Failed to create group")).

End Handlers.

End GroupModal.

(** * Vocabulary of the statements *)

Arguments ok : simpl never.

Module Net.

(** The request failed: the promise of [fetch] rejected (network or
    transport error) or the status is not a success status. *)
Definition failed {A} (o : Outcome A) : bool :=
  match o with
  | Rejected _ => true
  | Responded res => negb (ok res)
  end.

(** The body of a successful response, when it parses. *)
Definition parsed {A} (o : Outcome A) : option A :=
  match o with
  | Rejected _ => None
  | Responded res =>
      if ok res then
        match json_body res with
        | Ok a => Some a
        | Throw _ => None
        end
      else None
  end.

(** A response with status 200 and the given body. *)
Definition accepted {A} (a : A) : Outcome A :=
  Responded (mkResponse 200 (Ok a)).

(** The connection could not be made. *)
Definition offline {A} : Outcome A := Rejected (mkError "Failed to fetch").

End Net.

Section Vocabulary.

Import Home.

(** The one request of [askQuestion]. *)
Definition ask_request (st : State) (question : string) : Request :=
  mkRequest "/ask_question" POST json_headers
            (JsonBody (ask_body st question)).

(** What [askQuestion] does once the request has settled. *)
Definition ask_reply (c : Clock) (o : Outcome AskData) : Trace :=
  match Net.parsed o with
  | Some data => [AppendMessage (assistantMessage data c)]
  | None => [ConsoleError "Question failed:"; AppendMessage (errorMessage c)]
  end.

(** The request of section 4.2 as the specification words it: a JSON body
    that carries the question text, the focused paper id or null, the
    paper-id list of the focused group or null, the active mode and 5. *)
Definition carries_specified_fields (st : State) (q : string) (r : Request)
  : Prop :=
  exists b,
    body r = JsonBody b
    /\ In (JString q) (values b)
    /\ In (or_null (option_map Paper.paper_id (selectedPaper st))) (values b)
    /\ In (match selectedGroup st with
           | Some g => JArray (map JString (PaperGroup.paper_ids g))
           | None => JNull
           end) (values b)
    /\ In (JString (mode_string (mode st))) (values b)
    /\ In (JNumber 5) (values b).

(** At most one of the two selections is set. *)
Definition mutually_exclusive (st : State) : Prop :=
  selectedPaper st = None \/ selectedGroup st = None.

(** The trace selects nothing: the selections are at most cleared. *)
Definition only_clears (t : Trace) : bool :=
  forallb (fun e => match e with
                    | SetSelectedPaper (Some _) => false
                    | SetSelectedGroup (Some _) => false
                    | _ => true
                    end) t.

(** A member of the JSON body of a request. *)
Definition json_member (k : string) (r : Request) : option Json :=
  match body r with
  | JsonBody b => member k b
  | _ => None
  end.

(** The effects of a trace that come before its first request. *)
Fixpoint before_first_fetch (t : Trace) : Trace :=
  match t with
  | [] => []
  | Fetch _ :: _ => []
  | e :: rest => e :: before_first_fetch rest
  end.

(** The handler is in the loading state when it issues its first request. *)
Definition enters_loading (st : State) (t : Trace) : Prop :=
  isLoading (run (before_first_fetch t) st) = true.

(** The handler has left the loading state when it completes. *)
Definition exits_loading (st : State) (t : Trace) : Prop :=
  isLoading (run t st) = false.

(** The trace calls [setIsLoading]. *)
Definition sets_loading (t : Trace) : bool :=
  existsb (fun e => match e with SetIsLoading _ => true | _ => false end) t.

(** The handler brackets its requests with the loading state. *)
Definition brackets_loading (st : State) (t : Trace) : Prop :=
  enters_loading st t /\ exits_loading st t.

(** The handler leaves the loading flag alone. *)
Definition ignores_loading (st : State) (t : Trace) : Prop :=
  sets_loading t = false /\ isLoading (run t st) = isLoading st.

(** The request of the operation itself failed (not the refresh of a list
    that follows it, which is the operation [fetchPapers] or [fetchGroups]);
    the callbacks that issue no request cannot fail. *)
Definition primary_failed (ev : Event) : bool :=
  match ev with
  | FetchPapers o => Net.failed o
  | FetchGroups o => Net.failed o
  | CreateGroup _ _ _ post _ => Net.failed post
  | DeleteGroup _ del _ => Net.failed del
  | AddPapersToGroup _ _ post _ => Net.failed post
  | UploadPaper _ post _ => Net.failed post
  | DeletePaper _ del _ => Net.failed del
  | AskQuestion _ _ o => Net.failed o
  | SelectPaper _ | SelectGroup _ | ChooseMode _ | ToggleSidebar => false
  end.

(** *** Sample data *)

Definition noon : Clock := mkClock 1000 1000 2000 2000.

Definition survey : Paper.t :=
  Paper.mk "p1" "survey.pdf" (Some "A Survey") "2024-04-30" 12 40.

(** A group of two papers. *)
Definition vision_group : PaperGroup.t :=
  PaperGroup.mk "g1" "Vision" None ["p1"; "p2"] "2024-05-01".

Definition vision_selected : State :=
  step initial (SelectGroup (Some vision_group)).

Definition survey_selected : State :=
  step initial (SelectPaper (Some survey)).

(** A group of two papers that the server lists with an empty id. *)
Definition unnamed_group : PaperGroup.t :=
  PaperGroup.mk "" "Drafts" None ["p1"; "p2"] "2024-05-02".

Definition unnamed_selected : State :=
  step (step initial
          (FetchGroups (Net.accepted {| data_groups := Some [unnamed_group] |})))
       (SelectGroup (Some unnamed_group)).

(** A text file, and the [onUpload] property as [Home] binds it, with a
    server that takes the file. *)
Definition notes_txt : File := mkFile "notes.txt" "text/plain".

Definition upload_accepted (f : File) : Async OpResult :=
  uploadPaper f (Net.accepted {| detail := None |})
              (Net.accepted {| data_papers := Some [] |}).

End Vocabulary.

(** ** Vocabulary of the further properties *)

Section FurtherVocabulary.

Import Home.

(** What a handler returns, or the exception that escapes it. *)
Definition returned {A} (m : Async A) : result A := snd m.

(** The handler returns a value: no exception escapes it. *)
Definition settles {A} (m : Async A) : Prop := exists a, returned m = Ok a.

(** Method and path of a request. *)
Definition endpoint (r : Request) : Method * string := (method r, path r).

(** A sequence of events, each run to completion before the next. *)
Definition run_events (st : State) (evs : list Event) : State :=
  fold_left step evs st.

(** The roles of [n] question-and-reply exchanges. *)
Fixpoint exchanges (n : nat) : list Role :=
  match n with
  | O => []
  | S k => user :: assistant :: exchanges k
  end.

(** [onUpload] as [Home] binds it, for given answers of the network. *)
Definition upload_with (post : Outcome ErrorData) (refetch : Outcome PapersData)
    (f : File) : Async OpResult :=
  uploadPaper f post refetch.

(** [onCreateGroup] as [Home] binds it, for given answers of the network. *)
Definition create_with (post : Outcome ErrorData) (refetch : Outcome GroupsData)
    (name : string) (description : option string) (paperIds : list string)
  : Async OpResult :=
  createGroup name description paperIds post refetch.

(** [onClose] as the sidebar binds it. *)
Definition close_modal : Async unit := emit (SetShowGroupModal false).

(** A [trim] for the sample runs: it drops leading and trailing spaces. *)
Fixpoint drop_spaces (s : string) : string :=
  match s with
  | String " "%char rest => drop_spaces rest
  | _ => s
  end.

Fixpoint rev_string (s acc : string) : string :=
  match s with
  | EmptyString => acc
  | String c rest => rev_string rest (String c acc)
  end.

Definition trim_spaces (s : string) : string :=
  rev_string (drop_spaces (rev_string (drop_spaces s) "")) "".

Definition pdf : File := mkFile "survey.pdf" "application/pdf".

(** The events whose handler may set each part of the state. *)
Definition touches_papers (ev : Event) : bool :=
  match ev with
  | FetchPapers _ | UploadPaper _ _ _ | DeletePaper _ _ _ => true
  | _ => false
  end.

Definition touches_groups (ev : Event) : bool :=
  match ev with
  | FetchGroups _ | CreateGroup _ _ _ _ _ | DeleteGroup _ _ _
  | AddPapersToGroup _ _ _ _ => true
  | _ => false
  end.

Definition touches_selections (ev : Event) : bool :=
  match ev with
  | SelectPaper _ | SelectGroup _ | DeleteGroup _ _ _ | DeletePaper _ _ _ =>
      true
  | _ => false
  end.

(** What one event appends to the transcript. *)
Definition appended (ev : Event) : list Message.t :=
  match ev with
  | AskQuestion q c o =>
      [userMessage q c;
       match Net.parsed o with
       | Some data => assistantMessage data c
       | None => errorMessage c
       end]
  | _ => []
  end.

End FurtherVocabulary.

(** * Properties *)

(** ** Reading the outcome of a request *)

Lemma failed_inv {A} (o : Outcome A) :
  Net.failed o = true ->
  (exists e, o = Rejected e) \/ (exists res, o = Responded res /\ ok res = false).
Proof.
  destruct o as [e | res]; cbn; intros H.
  - left. exists e. reflexivity.
  - right. exists res. split; [reflexivity |].
    destruct (ok res); [discriminate H | reflexivity].
Qed.

Lemma failed_parsed {A} (o : Outcome A) :
  Net.failed o = true -> Net.parsed o = None.
Proof.
  intros [[e ->] | [res [-> H]]]%failed_inv; cbn; [reflexivity |].
  rewrite H. reflexivity.
Qed.

(** Unfolding of the handlers down to the outcome of their requests. *)
Ltac unfold_handlers :=
  unfold Home.step, Home.handle, Home.askQuestion, Home.createGroup,
    Home.deleteGroup, Home.addPapersToGroup, Home.uploadPaper,
    Home.deletePaper, Home.fetchPapers, Home.fetchGroups,
    Home.onSelectPaper, Home.onSelectGroup, Home.toggleSidebar,
    fetch, json, trace; cbn.

(** Case analysis on what the network answered to every request in the goal:
    rejected, refused with a status, accepted with or without a body that
    parses. *)
Ltac by_outcomes :=
  repeat (cbn;
    match goal with
    | |- context [match ?o with Rejected _ => _ | Responded _ => _ end] =>
        is_var o; destruct o
    | |- context [ok ?r] => destruct (ok r) eqn:?
    | |- context [json_body ?r] => destruct (json_body r)
    end); cbn.

(** ** Running a trace *)

Lemma run_app t1 t2 st :
  Home.run (t1 ++ t2) st = Home.run t2 (Home.run t1 st).
Proof. unfold Home.run. apply fold_left_app. Qed.

(** ** The trace of [askQuestion] *)

Section AskTrace.

Import Home.

Lemma askQuestion_trace st q c o :
  trace (askQuestion st q c o) =
    [AppendMessage (userMessage q c); SetIsLoading true;
     Fetch (ask_request st q)]
    ++ ask_reply c o ++ [SetIsLoading false].
Proof.
  unfold ask_reply, ask_request, Net.parsed. unfold_handlers.
  by_outcomes; reflexivity.
Qed.

Lemma askQuestion_requests st q c o :
  requests (trace (askQuestion st q c o)) = [ask_request st q].
Proof.
  rewrite askQuestion_trace. unfold ask_reply.
  destruct (Net.parsed o); reflexivity.
Qed.

End AskTrace.

(** ** The chat submission protocol *)

Section ChatSubmission.

Import Home.

(** C1. Every call to [askQuestion] appends exactly two entries to the
    transcript: the user message carrying the question, then an assistant
    message that is built from the answer, the citations and the mode of the
    response when the request succeeds, and that carries the fixed apology
    when it fails. *)
Theorem askQuestion_appends_two (st : State) (q : string) (c : Clock)
    (o : Outcome AskData) :
  exists u a : Message.t,
    messages (step st (AskQuestion q c o)) = messages st ++ [u; a]
    /\ List.length (messages (step st (AskQuestion q c o)))
       = (List.length (messages st) + 2)%nat
    /\ Message.role u = user /\ Message.content u = q
    /\ Message.role a = assistant
    /\ match Net.parsed o with
       | Some data =>
           Message.content a = answer data
           /\ Message.citations a = data_citations data
           /\ Message.mode a = data_mode data
       | None =>
           Message.content a =
             "Sorry, I encountered an error processing your question. Please try again."
           /\ Message.citations a = None
           /\ Message.mode a = None
       end.
Proof.
  unfold step, handle. rewrite askQuestion_trace. unfold ask_reply.
  destruct (Net.parsed o) as [data |].
  - exists (userMessage q c), (assistantMessage data c). cbn.
    rewrite <- app_assoc, List.length_app. cbn. repeat split; lia.
  - exists (userMessage q c), (errorMessage c). cbn.
    rewrite <- app_assoc, List.length_app. cbn. repeat split; lia.
Qed.

(** C2 as stated fails: with the group of two papers selected, no request of
    [askQuestion] carries the list of paper ids; the body names the group by
    its id. *)
Lemma ask_request_omits_paper_ids :
  ~ exists r,
      In r (requests (trace (askQuestion vision_selected "What is the sample size?"
                                noon Net.offline)))
      /\ carries_specified_fields vision_selected "What is the sample size?" r.
Proof.
  intros [r [Hr [b [Hb [_ [_ [Hlist _]]]]]]].
  rewrite askQuestion_requests in Hr.
  destruct Hr as [<- | []].
  cbn in Hb. injection Hb as <-.
  cbn in Hlist.
  repeat (destruct Hlist as [Hlist | Hlist]; [discriminate Hlist |]).
  exact Hlist.
Qed.

(** C2, amended. When a question is submitted, exactly one request is
    issued, a POST to /ask_question whose JSON body has the members
    question (the question text), paper_id (the id of the focused paper, or
    null when there is none or the id is empty), group_id (the id of the
    focused group, or null likewise), mode (the active mode) and top_k (5),
    and no other member. *)
Theorem askQuestion_request_fields (st : State) (q : string) (c : Clock)
    (o : Outcome AskData) :
  exists b ms,
    requests (trace (askQuestion st q c o))
      = [mkRequest "/ask_question" POST json_headers (JsonBody b)]
    /\ b = JObject ms
    /\ map fst ms = ["question"; "paper_id"; "group_id"; "mode"; "top_k"]
    /\ member "question" b = Some (JString q)
    /\ member "paper_id" b
       = Some (or_null (option_map Paper.paper_id (selectedPaper st)))
    /\ member "group_id" b
       = Some (or_null (option_map PaperGroup.group_id (selectedGroup st)))
    /\ member "mode" b = Some (JString (mode_string (mode st)))
    /\ member "top_k" b = Some (JNumber 5).
Proof.
  rewrite askQuestion_requests.
  eexists. eexists. split; [reflexivity |].
  split; [reflexivity |]. repeat split.
Qed.

(** C8. After every completed [askQuestion], whatever the outcome of the
    request, the loading flag is false: the last effect of the handler is
    [setIsLoading(false)], so every non-blank input can be submitted
    again. *)
Theorem askQuestion_clears_loading (st : State) (q : string) (c : Clock)
    (o : Outcome AskData) :
  isLoading (step st (AskQuestion q c o)) = false
  /\ last (trace (askQuestion st q c o)) (SetIsLoading true)
     = SetIsLoading false
  /\ forall trimmed,
       ChatInterface.canSubmit trimmed
         (isLoading (step st (AskQuestion q c o)))
       = negb (String.eqb trimmed "").
Proof.
  assert (H : isLoading (step st (AskQuestion q c o)) = false).
  { unfold step, handle. rewrite askQuestion_trace.
    rewrite app_assoc, run_app. reflexivity. }
  split; [exact H |]. split.
  - rewrite askQuestion_trace, app_assoc. apply last_last.
  - intros trimmed. rewrite H. unfold ChatInterface.canSubmit.
    apply andb_true_r.
Qed.

End ChatSubmission.

(** ** The selections *)

Section Selections.

Import Home.

Lemma only_clears_exclusive t :
  only_clears t = true ->
  forall st, mutually_exclusive st -> mutually_exclusive (run t st).
Proof.
  induction t as [| e t IH]; intros Ht st Hst; [exact Hst |].
  cbn in Ht. apply andb_true_iff in Ht as [He Ht].
  apply (IH Ht). clear IH Ht.
  destruct Hst as [Hp | Hg];
    destruct e as [| | | [p |] | | [g |] | | | | | | | | |];
    try discriminate He; unfold mutually_exclusive; cbn; auto.
Qed.

(** Apart from the two selection callbacks, no handler sets a selection. *)
Lemma handle_only_clears st ev :
  (forall p, ev <> SelectPaper p) -> (forall g, ev <> SelectGroup g) ->
  only_clears (handle st ev) = true.
Proof.
  intros Hp Hg.
  destruct ev; try (exfalso; eapply Hp; reflexivity);
    try (exfalso; eapply Hg; reflexivity);
    unfold_handlers; by_outcomes; try reflexivity;
    repeat match goal with
           | |- context [if ?b then _ else _] => destruct b; cbn
           end; reflexivity.
Qed.

Lemma step_exclusive st ev :
  mutually_exclusive st -> mutually_exclusive (step st ev).
Proof.
  intros Hst.
  destruct ev;
    try (apply only_clears_exclusive;
         [apply handle_only_clears; discriminate | exact Hst]).
  - right. reflexivity.
  - left. reflexivity.
Qed.

Lemma reachable_exclusive st : reachable st -> mutually_exclusive st.
Proof.
  induction 1 as [| st ev _ IH].
  - left. reflexivity.
  - apply step_exclusive, IH.
Qed.

(** C4. At most one of [selectedPaper] and [selectedGroup] is set in every
    reachable state: selecting a paper clears the selected group, selecting
    a group clears the selected paper, and every operation keeps the
    property. *)
Theorem selections_mutually_exclusive :
  (forall st, reachable st -> mutually_exclusive st)
  /\ (forall st p,
        selectedPaper (step st (SelectPaper p)) = p
        /\ selectedGroup (step st (SelectPaper p)) = None)
  /\ (forall st g,
        selectedGroup (step st (SelectGroup g)) = g
        /\ selectedPaper (step st (SelectGroup g)) = None)
  /\ (forall st ev, mutually_exclusive st -> mutually_exclusive (step st ev)).
Proof.
  split; [| split; [| split]].
  - exact reachable_exclusive.
  - intros st p. split; reflexivity.
  - intros st g. split; reflexivity.
  - exact step_exclusive.
Qed.

Lemma selections_mutually_exclusive_witness :
  reachable vision_selected /\ mutually_exclusive vision_selected.
Proof.
  assert (H : reachable vision_selected)
    by (apply reachable_step, reachable_initial).
  split; [exact H |].
  exact (proj1 selections_mutually_exclusive vision_selected H).
Defined.

(** C3 as stated fails: with the group that has an empty id selected, a
    reachable state, the request names no group; its group_id is null, not
    the id of the group. *)
Lemma ask_request_empty_group_id :
  reachable unnamed_selected
  /\ selectedGroup unnamed_selected = Some unnamed_group
  /\ map (json_member "group_id")
         (requests (trace (askQuestion unnamed_selected "Which is newer?"
                             noon Net.offline)))
     = [Some JNull]
  /\ JNull <> JString (PaperGroup.group_id unnamed_group).
Proof.
  split; [do 2 apply reachable_step; apply reachable_initial |].
  split; [reflexivity |].
  split; [rewrite askQuestion_requests; reflexivity | discriminate].
Qed.

(** C3, amended. For every question submitted while a group is selected,
    the group_id of the request body is the id of the selected group when
    that id is not the empty string, and null when it is, and its paper_id
    is null; for every question submitted in any state, top_k is 5. *)
Theorem ask_request_of_selected_group :
  (forall st g q c o,
      reachable st -> selectedGroup st = Some g ->
      map (json_member "group_id") (requests (trace (askQuestion st q c o)))
        = [Some (if String.eqb (PaperGroup.group_id g) ""
                 then JNull else JString (PaperGroup.group_id g))]
      /\ map (json_member "paper_id")
             (requests (trace (askQuestion st q c o)))
         = [Some JNull])
  /\ (forall st q c o,
        map (json_member "top_k") (requests (trace (askQuestion st q c o)))
        = [Some (JNumber 5)]).
Proof.
  split.
  - intros st g q c o Hreach Hg.
    rewrite askQuestion_requests. cbn.
    destruct (reachable_exclusive Hreach) as [Hp | Hnone];
      [| congruence].
    rewrite Hp, Hg. cbn. split; reflexivity.
  - intros st q c o. rewrite askQuestion_requests. reflexivity.
Qed.

Lemma ask_request_of_selected_group_witness :
  map (json_member "group_id")
      (requests (trace (askQuestion vision_selected "What is the sample size?"
                          noon Net.offline)))
    = [Some (JString "g1")]
  /\ map (json_member "paper_id")
         (requests (trace (askQuestion vision_selected
                             "What is the sample size?" noon Net.offline)))
     = [Some JNull].
Proof.
  apply (proj1 ask_request_of_selected_group vision_selected vision_group).
  - apply reachable_step, reachable_initial.
  - reflexivity.
Defined.

(** C9. When the deleted group is the selected one and the DELETE request
    succeeds, [selectedGroup] is null once [deleteGroup] has completed,
    whatever the refresh of the list comes to; likewise [selectedPaper]
    after [deletePaper] of the selected paper. *)
Theorem delete_clears_selection :
  (forall st g del refetch,
      selectedGroup st = Some g -> Net.failed del = false ->
      selectedGroup
        (step st (DeleteGroup (PaperGroup.group_id g) del refetch)) = None)
  /\ (forall st p del refetch,
        selectedPaper st = Some p -> Net.failed del = false ->
        selectedPaper
          (step st (DeletePaper (Paper.paper_id p) del refetch)) = None).
Proof.
  split.
  - intros st g [e | res] refetch Hsel Hok; [discriminate Hok |].
    cbn in Hok. apply negb_false_iff in Hok.
    unfold step, handle, deleteGroup, selectedGroup_is, fetch, trace.
    rewrite Hsel, String.eqb_refl. cbn. rewrite Hok.
    unfold fetchGroups, fetch, json. by_outcomes; reflexivity.
  - intros st p [e | res] refetch Hsel Hok; [discriminate Hok |].
    cbn in Hok. apply negb_false_iff in Hok.
    unfold step, handle, deletePaper, selectedPaper_is, fetch, trace.
    rewrite Hsel, String.eqb_refl. cbn. rewrite Hok.
    unfold fetchPapers, fetch, json. by_outcomes; reflexivity.
Qed.

Lemma delete_clears_selection_witness :
  selectedGroup
    (step vision_selected
          (DeleteGroup "g1" (Net.accepted tt) Net.offline)) = None
  /\ selectedPaper
       (step survey_selected
             (DeletePaper "p1" (Net.accepted tt)
                          (Net.accepted {| data_papers := Some [] |}))) = None.
Proof.
  split.
  - apply (proj1 delete_clears_selection vision_selected vision_group);
      reflexivity.
  - apply (proj2 delete_clears_selection survey_selected survey);
      reflexivity.
Defined.

End Selections.

(** ** The loading flag *)

Section Loading.

Import Home.

Lemma sets_loading_false_keeps t :
  sets_loading t = false -> forall st, isLoading (run t st) = isLoading st.
Proof.
  induction t as [| e t IH]; intros Ht st; [reflexivity |].
  cbn in Ht. apply orb_false_iff in Ht as [He Ht].
  change (run (e :: t) st) with (run t (apply st e)).
  rewrite (IH Ht). destruct e; try discriminate He; reflexivity.
Qed.

(** C6 as stated fails: from the initial, idle state, [createGroup] issues
    its request without entering the loading state. *)
Lemma createGroup_requests_while_idle :
  requests (handle initial
              (CreateGroup "Vision" None ["p1"; "p2"]
                 (Net.accepted {| detail := None |})
                 (Net.accepted {| data_groups := Some [vision_group] |})))
    <> []
  /\ ~ enters_loading initial
         (handle initial
            (CreateGroup "Vision" None ["p1"; "p2"]
               (Net.accepted {| detail := None |})
               (Net.accepted {| data_groups := Some [vision_group] |}))).
Proof.
  split; [discriminate |].
  unfold enters_loading. cbn. discriminate.
Qed.

(** C6, amended. upload-paper and ask-question enter the loading state
    before their request is issued and have left it when they complete,
    whatever the outcome; create-group, delete-group, add-papers-to-group and
    delete-paper never set the loading flag, which keeps its value. *)
Theorem loading_bracket :
  (forall st f post refetch,
      brackets_loading st (handle st (UploadPaper f post refetch)))
  /\ (forall st q c o,
        brackets_loading st (handle st (AskQuestion q c o)))
  /\ (forall st n d ids post refetch,
        ignores_loading st (handle st (CreateGroup n d ids post refetch)))
  /\ (forall st gid del refetch,
        ignores_loading st (handle st (DeleteGroup gid del refetch)))
  /\ (forall st gid ids post refetch,
        ignores_loading st (handle st (AddPapersToGroup gid ids post refetch)))
  /\ (forall st pid del refetch,
        ignores_loading st (handle st (DeletePaper pid del refetch))).
Proof.
  repeat split.
  - unfold enters_loading. unfold_handlers. by_outcomes; reflexivity.
  - unfold exits_loading. unfold_handlers. by_outcomes; reflexivity.
  - unfold enters_loading, handle. rewrite askQuestion_trace. reflexivity.
  - unfold exits_loading, handle. rewrite askQuestion_trace.
    rewrite app_assoc, run_app. reflexivity.
  - unfold_handlers. by_outcomes; reflexivity.
  - apply sets_loading_false_keeps.
    unfold_handlers. by_outcomes; reflexivity.
  - unfold_handlers. by_outcomes; try reflexivity;
      destruct (selectedGroup_is st gid); reflexivity.
  - apply sets_loading_false_keeps.
    unfold_handlers. by_outcomes; try reflexivity;
      destruct (selectedGroup_is st gid); reflexivity.
  - unfold_handlers. by_outcomes; reflexivity.
  - apply sets_loading_false_keeps.
    unfold_handlers. by_outcomes; reflexivity.
  - unfold_handlers. by_outcomes; try reflexivity;
      destruct (selectedPaper_is st pid); reflexivity.
  - apply sets_loading_false_keeps.
    unfold_handlers. by_outcomes; try reflexivity;
      destruct (selectedPaper_is st pid); reflexivity.
Qed.

End Loading.

(** ** Failures *)

Section Failures.

Import Home.

(** C7. For every operation, when its request fails (the network rejects it
    or the status is not a success status), the papers list, the groups
    list and the two selections are as they were before the call; the
    transcript is as it was too, except after a failed ask-question, which
    has appended the user message and the apology. *)
Theorem failure_leaves_state (st : State) (ev : Event) :
  primary_failed ev = true ->
  papers (step st ev) = papers st
  /\ groups (step st ev) = groups st
  /\ selectedPaper (step st ev) = selectedPaper st
  /\ selectedGroup (step st ev) = selectedGroup st
  /\ match ev with
     | AskQuestion q c _ =>
         messages (step st ev)
         = messages st ++ [userMessage q c; errorMessage c]
     | _ => messages (step st ev) = messages st
     end.
Proof.
  intros Hfail.
  destruct ev; cbn in Hfail; try discriminate Hfail;
    apply failed_inv in Hfail as [[e ->] | [res [-> Hok]]];
    unfold_handlers; rewrite ?Hok; by_outcomes;
    rewrite <- ?app_assoc; repeat split.
Qed.

Lemma failure_leaves_state_witness :
  papers (step survey_selected
            (AskQuestion "What is the sample size?" noon Net.offline))
    = papers survey_selected
  /\ groups (step survey_selected
               (AskQuestion "What is the sample size?" noon Net.offline))
     = groups survey_selected
  /\ selectedPaper (step survey_selected
                      (AskQuestion "What is the sample size?" noon Net.offline))
     = Some survey
  /\ selectedGroup (step survey_selected
                      (AskQuestion "What is the sample size?" noon Net.offline))
     = None
  /\ messages (step survey_selected
                 (AskQuestion "What is the sample size?" noon Net.offline))
     = messages survey_selected
       ++ [userMessage "What is the sample size?" noon; errorMessage noon].
Proof.
  apply (failure_leaves_state survey_selected
           (AskQuestion "What is the sample size?" noon Net.offline)).
  reflexivity.
Defined.

End Failures.

(** ** Uploads *)

Section Uploads.

Import PaperSidebar.

(** A dropped file that is not a PDF is refused before [onUpload] is
    called. *)
Lemma handleDrop_rejects_non_pdf onUpload (f : File) :
  String.eqb (file_type f) "application/pdf" = false ->
  trace (handleDrop onUpload (Some f))
  = [SetIsDragging false; SetError None;
     SetError (Some "Please upload a PDF file")].
Proof.
  intros Hf. unfold handleDrop. rewrite Hf. reflexivity.
Qed.

(** A file chosen in the file selector goes to [onUpload] whatever its
    type. *)
Lemma handleFileSelect_uploads (f : File) post refetch :
  hd_error (requests (trace (handleFileSelect
                               (fun f => Home.uploadPaper f post refetch)
                               (Some f))))
  = Some (mkRequest "/upload_paper" POST [] (FormData [("file", f)])).
Proof.
  unfold handleFileSelect, handleFileUpload. unfold_handlers.
  by_outcomes; reflexivity.
Qed.

(** C5, at the failing input. A text file chosen in the file selector is
    posted to /upload_paper and, the server taking it, no error is
    displayed; the same file dropped on the zone is refused with the error
    and no request. *)
Theorem handleFileSelect_posts_non_pdf :
  String.eqb (file_type notes_txt) "application/pdf" = false
  /\ requests (trace (handleFileSelect upload_accepted (Some notes_txt)))
     = [mkRequest "/upload_paper" POST [] (FormData [("file", notes_txt)]);
        mkRequest "/list_papers" GET [] NoBody]
  /\ errorShown (run (trace (handleFileSelect upload_accepted (Some notes_txt)))
                     initial) = false
  /\ requests (trace (handleDrop upload_accepted (Some notes_txt))) = []
  /\ errorShown (run (trace (handleDrop upload_accepted (Some notes_txt)))
                     initial) = true.
Proof. repeat split. Qed.

End Uploads.

(** ** The paper check boxes of the group form *)

Section Toggle.

Import GroupModal.

Lemma includes_In prev id : includes prev id = true <-> In id prev.
Proof.
  unfold includes. rewrite existsb_exists. split.
  - intros [x [Hx Heq]]. apply String.eqb_eq in Heq. subst x. exact Hx.
  - intros H. exists id. split; [exact H | apply String.eqb_refl].
Qed.

Lemma includes_not_In prev id : includes prev id = false <-> ~ In id prev.
Proof.
  rewrite <- includes_In. destruct (includes prev id); split;
    congruence.
Qed.

(** Membership after a toggle. *)
Lemma togglePaper_In prev id x :
  In x (togglePaper prev id)
  <-> (x = id /\ ~ In id prev) \/ (x <> id /\ In x prev).
Proof.
  unfold togglePaper. destruct (includes prev id) eqn:Hinc.
  - apply includes_In in Hinc. rewrite filter_In, negb_true_iff.
    rewrite String.eqb_neq. tauto.
  - apply includes_not_In in Hinc. rewrite in_app_iff. cbn.
    destruct (string_dec x id) as [-> | Hne]; [tauto |].
    split.
    + intros [H | [H | []]]; [tauto | congruence].
    + tauto.
Qed.

Lemma togglePaper_NoDup prev id : NoDup prev -> NoDup (togglePaper prev id).
Proof.
  intros Hnd. unfold togglePaper. destruct (includes prev id) eqn:Hinc.
  - apply NoDup_filter, Hnd.
  - apply includes_not_In in Hinc. apply NoDup_app.
    + exact Hnd.
    + constructor; [intros [] | constructor].
    + intros a Ha [<- | []]. exact (Hinc Ha).
Qed.

(** C10. For a list of selected ids without duplicates and any paper id,
    [togglePaper] gives a list without duplicates in which the membership of
    that id is inverted and the membership of every other id is unchanged;
    toggling the same id twice gives back the same set of ids. *)
Theorem togglePaper_inverts_membership (prev : list string) (id : string) :
  NoDup prev ->
  NoDup (togglePaper prev id)
  /\ (In id (togglePaper prev id) <-> ~ In id prev)
  /\ (forall x, x <> id -> (In x (togglePaper prev id) <-> In x prev))
  /\ (forall x, In x (togglePaper (togglePaper prev id) id) <-> In x prev).
Proof.
  intros Hnd. split; [apply togglePaper_NoDup, Hnd |].
  split; [| split].
  - rewrite togglePaper_In. tauto.
  - intros x Hx. rewrite togglePaper_In. tauto.
  - intros x. rewrite !togglePaper_In.
    destruct (string_dec x id) as [-> | Hne];
      destruct (in_dec string_dec id prev); tauto.
Qed.

Lemma togglePaper_inverts_membership_witness :
  NoDup ["p1"; "p2"]
  /\ NoDup (togglePaper ["p1"; "p2"] "p1")
  /\ (In "p1" (togglePaper ["p1"; "p2"] "p1") <-> ~ In "p1" ["p1"; "p2"])
  /\ (forall x, x <> "p1" ->
                (In x (togglePaper ["p1"; "p2"] "p1") <-> In x ["p1"; "p2"]))
  /\ (forall x, In x (togglePaper (togglePaper ["p1"; "p2"] "p1") "p1")
                <-> In x ["p1"; "p2"]).
Proof.
  assert (H : NoDup ["p1"; "p2"]).
  { constructor.
    - intros [H | []]. discriminate H.
    - constructor; [intros [] | constructor]. }
  split; [exact H |].
  exact (togglePaper_inverts_membership "p1" H).
Defined.

End Toggle.

(** * Further properties *)

(** ** The list refreshes *)

Section Refresh.

Import Home.

(** X1. A list refresh that succeeds replaces the list by the one of the
    response, or by the empty list when the response has no such member; a
    refresh that does not succeed keeps the list; in every case the rest of
    the state is as before.  [fetchPapers] and [fetchGroups] alike. *)
Theorem refresh_replaces_list (st : State) :
  (forall o,
      papers (step st (FetchPapers o))
      = match Net.parsed o with
        | Some data =>
            match data_papers data with Some ps => ps | None => [] end
        | None => papers st
        end
      /\ groups (step st (FetchPapers o)) = groups st
      /\ selectedPaper (step st (FetchPapers o)) = selectedPaper st
      /\ selectedGroup (step st (FetchPapers o)) = selectedGroup st
      /\ messages (step st (FetchPapers o)) = messages st
      /\ isLoading (step st (FetchPapers o)) = isLoading st
      /\ mode (step st (FetchPapers o)) = mode st
      /\ sidebarOpen (step st (FetchPapers o)) = sidebarOpen st)
  /\ (forall o,
        groups (step st (FetchGroups o))
        = match Net.parsed o with
          | Some data =>
              match data_groups data with Some gs => gs | None => [] end
          | None => groups st
          end
        /\ papers (step st (FetchGroups o)) = papers st
        /\ selectedPaper (step st (FetchGroups o)) = selectedPaper st
        /\ selectedGroup (step st (FetchGroups o)) = selectedGroup st
        /\ messages (step st (FetchGroups o)) = messages st
        /\ isLoading (step st (FetchGroups o)) = isLoading st
        /\ mode (step st (FetchGroups o)) = mode st
        /\ sidebarOpen (step st (FetchGroups o)) = sidebarOpen st).
Proof.
  split; intros o; unfold Net.parsed; unfold_handlers; by_outcomes;
    repeat split.
Qed.

(** X2. No exception escapes a handler of [Home]: whatever the network
    answers to each request, every asynchronous handler returns. *)
Theorem handlers_settle :
  (forall o, settles (fetchPapers o))
  /\ (forall o, settles (fetchGroups o))
  /\ (forall n d ids post refetch, settles (createGroup n d ids post refetch))
  /\ (forall st gid del refetch, settles (deleteGroup st gid del refetch))
  /\ (forall gid ids post refetch,
        settles (addPapersToGroup gid ids post refetch))
  /\ (forall f post refetch, settles (uploadPaper f post refetch))
  /\ (forall st pid del refetch, settles (deletePaper st pid del refetch))
  /\ (forall st q c o, settles (askQuestion st q c o)).
Proof.
  unfold settles, returned.
  repeat split; intros; unfold_handlers; by_outcomes;
    repeat match goal with
           | |- context [if ?b then _ else _] => destruct b; cbn
           end;
    eexists; reflexivity.
Qed.

(** X3. A mutating operation refreshes its list exactly when its own request
    succeeded, and after it: the requests are the mutation alone when it
    failed, the mutation followed by the GET of the list otherwise. *)
Theorem refresh_follows_success :
  (forall n d ids post refetch,
      map endpoint (requests (trace (createGroup n d ids post refetch)))
      = (POST, "/groups")
          :: if Net.failed post then [] else [(GET, "/groups")])
  /\ (forall st gid del refetch,
        map endpoint (requests (trace (deleteGroup st gid del refetch)))
        = (DELETE, ("/groups/" ++ gid)%string)
            :: if Net.failed del then [] else [(GET, "/groups")])
  /\ (forall gid ids post refetch,
        map endpoint (requests (trace (addPapersToGroup gid ids post refetch)))
        = (POST, ("/groups/" ++ gid ++ "/papers")%string)
            :: if Net.failed post then [] else [(GET, "/groups")])
  /\ (forall f post refetch,
        map endpoint (requests (trace (uploadPaper f post refetch)))
        = (POST, "/upload_paper")
            :: if Net.failed post then [] else [(GET, "/list_papers")])
  /\ (forall st pid del refetch,
        map endpoint (requests (trace (deletePaper st pid del refetch)))
        = (DELETE, ("/delete_paper/" ++ pid)%string)
            :: if Net.failed del then [] else [(GET, "/list_papers")]).
Proof.
  unfold Net.failed.
  repeat split; intros; unfold_handlers; by_outcomes;
    repeat match goal with
           | |- context [if ?b then _ else _] => destruct b; cbn
           end;
    reflexivity.
Qed.

End Refresh.

(** ** What the form-driven handlers return *)

Section Results.

Import Home.

(** X4. create-group, add-papers-to-group and upload-paper report success
    exactly when their own request succeeded, whatever the refresh of the list
    comes to; a success carries no error text and a failure always carries
    one. *)
Theorem result_reports_request :
  (forall n d ids post refetch,
      exists r, returned (createGroup n d ids post refetch) = Ok r
                /\ success r = negb (Net.failed post)
                /\ (error r = None <-> success r = true))
  /\ (forall gid ids post refetch,
        exists r, returned (addPapersToGroup gid ids post refetch) = Ok r
                  /\ success r = negb (Net.failed post)
                  /\ (error r = None <-> success r = true))
  /\ (forall f post refetch,
        exists r, returned (uploadPaper f post refetch) = Ok r
                  /\ success r = negb (Net.failed post)
                  /\ (error r = None <-> success r = true)).
Proof.
  unfold returned, Net.failed.
  repeat split; intros; unfold_handlers; by_outcomes;
    eexists; (split; [reflexivity |]); cbn; (split; [reflexivity |]);
    split; congruence.
Qed.

(** X5. The error text of a request refused with a status: for create-group
    and upload-paper it is the detail of the response body when there is a
    non-empty one, the fixed text of the operation when the body has none, and
    the message of the parse error when the body is not JSON; for
    add-papers-to-group it is the fixed text, the body not being read. *)
Theorem refusal_text (res : Response ErrorData) (res' : Response unit) :
  ok res = false -> ok res' = false ->
  (forall n d ids refetch,
      returned (createGroup n d ids (Responded res) refetch)
      = Ok (mkResult false
              (Some match json_body res with
                    | Ok data => or_default (detail data) "Failed to create group"
                    | Throw e => message e
                    end)))
  /\ (forall f refetch,
        returned (uploadPaper f (Responded res) refetch)
        = Ok (mkResult false
                (Some match json_body res with
                      | Ok data => or_default (detail data) "Upload failed"
                      | Throw e => message e
                      end)))
  /\ (forall gid ids refetch,
        returned (addPapersToGroup gid ids (Responded res') refetch)
        = Ok (mkResult false (Some "Failed to add papers to group"))).
Proof.
  intros Hok Hok'. unfold returned.
  repeat split; intros; unfold_handlers; rewrite ?Hok, ?Hok'; cbn;
    try (destruct (json_body res); cbn); reflexivity.
Qed.

Lemma refusal_text_witness :
  returned (createGroup "Vision" None ["p1"]
              (Responded (mkResponse 400 (Ok {| detail := Some "Group exists" |})))
              Net.offline)
  = Ok (mkResult false (Some "Group exists"))
  /\ returned (uploadPaper notes_txt
                 (Responded (mkResponse 400 (Ok {| detail := None |})))
                 Net.offline)
     = Ok (mkResult false (Some "Upload failed")).
Proof.
  assert (H : ok (mkResponse 400 (Ok {| detail := Some "Group exists" |})) = false)
    by reflexivity.
  assert (H0 : ok (mkResponse 400 (Ok {| detail := None |})) = false)
    by reflexivity.
  assert (H' : ok (mkResponse 500 (Ok tt)) = false) by reflexivity.
  split.
  - exact (proj1 (refusal_text _ _ H H') "Vision" None ["p1"] Net.offline).
  - exact (proj1 (proj2 (refusal_text _ _ H0 H')) notes_txt Net.offline).
Defined.

End Results.

(** ** Frames *)

Section Frames.

Import Home.

Lemma step_messages st ev :
  messages (step st ev) = messages st ++ appended ev.
Proof.
  destruct ev; unfold appended;
    try (unfold Net.parsed; unfold_handlers; by_outcomes;
         repeat match goal with
                | |- context [if ?b then _ else _] => destruct b; cbn
                end;
         rewrite ?app_nil_r, <- ?app_assoc; reflexivity).
Qed.

(** X6. Each handler sets only its own part of the state: the papers list
    is set only by fetch-papers, upload-paper and delete-paper, the groups
    list only by fetch-groups and the three group operations, the selections
    only by the two selection callbacks and the two deletes, the mode only by
    the mode setter and the sidebar flag only by the toggle. *)
Theorem handlers_frame (st : State) (ev : Event) :
  (touches_papers ev = false -> papers (step st ev) = papers st)
  /\ (touches_groups ev = false -> groups (step st ev) = groups st)
  /\ (touches_selections ev = false ->
      selectedPaper (step st ev) = selectedPaper st
      /\ selectedGroup (step st ev) = selectedGroup st)
  /\ ((forall m, ev <> ChooseMode m) -> mode (step st ev) = mode st)
  /\ (ev <> ToggleSidebar -> sidebarOpen (step st ev) = sidebarOpen st).
Proof.
  split; [| split; [| split; [| split]]]; intros Hev; destruct ev;
    try discriminate Hev;
    try (exfalso; eapply Hev; reflexivity);
    try (exfalso; apply Hev; reflexivity);
    unfold_handlers; by_outcomes;
    repeat match goal with
           | |- context [if ?b then _ else _] => destruct b; cbn
           end;
    try split; reflexivity.
Qed.

Lemma handlers_frame_witness :
  papers (step survey_selected
            (CreateGroup "Vision" None ["p1"]
               (Net.accepted {| detail := None |})
               (Net.accepted {| data_groups := Some [vision_group] |})))
    = papers survey_selected
  /\ selectedPaper (step survey_selected
                      (CreateGroup "Vision" None ["p1"]
                         (Net.accepted {| detail := None |})
                         (Net.accepted {| data_groups := Some [vision_group] |})))
     = Some survey.
Proof.
  pose proof (handlers_frame survey_selected
                (CreateGroup "Vision" None ["p1"]
                   (Net.accepted {| detail := None |})
                   (Net.accepted {| data_groups := Some [vision_group] |})))
    as [Hp [_ [Hs _]]].
  split.
  - apply Hp. reflexivity.
  - apply Hs. reflexivity.
Defined.

(** X7. Deleting a group other than the selected one, or a paper other than
    the selected one, leaves both selections as they are, whatever the
    requests come to. *)
Theorem delete_other_keeps_selection :
  (forall st gid del refetch,
      (forall g, selectedGroup st = Some g -> PaperGroup.group_id g <> gid) ->
      selectedGroup (step st (DeleteGroup gid del refetch)) = selectedGroup st
      /\ selectedPaper (step st (DeleteGroup gid del refetch))
         = selectedPaper st)
  /\ (forall st pid del refetch,
        (forall p, selectedPaper st = Some p -> Paper.paper_id p <> pid) ->
        selectedPaper (step st (DeletePaper pid del refetch)) = selectedPaper st
        /\ selectedGroup (step st (DeletePaper pid del refetch))
           = selectedGroup st).
Proof.
  split.
  - intros st gid del refetch Hother.
    assert (Hsel : selectedGroup_is st gid = false).
    { unfold selectedGroup_is. destruct (selectedGroup st) as [g |] eqn:E;
        [| reflexivity].
      apply String.eqb_neq, Hother. reflexivity. }
    unfold_handlers. rewrite Hsel. by_outcomes; split; reflexivity.
  - intros st pid del refetch Hother.
    assert (Hsel : selectedPaper_is st pid = false).
    { unfold selectedPaper_is. destruct (selectedPaper st) as [p |] eqn:E;
        [| reflexivity].
      apply String.eqb_neq, Hother. reflexivity. }
    unfold_handlers. rewrite Hsel. by_outcomes; split; reflexivity.
Qed.

Lemma delete_other_keeps_selection_witness :
  selectedGroup (step vision_selected
                   (DeleteGroup "g2" (Net.accepted tt) Net.offline))
    = Some vision_group
  /\ selectedPaper (step vision_selected
                      (DeleteGroup "g2" (Net.accepted tt) Net.offline))
     = None.
Proof.
  apply (proj1 delete_other_keeps_selection vision_selected "g2").
  intros g Hg. injection Hg as <-. discriminate.
Defined.

End Frames.

(** ** The transcript *)

Section Transcript.

Import Home.

Lemma run_events_messages evs :
  forall st, exists l, messages (run_events st evs) = messages st ++ l.
Proof.
  induction evs as [| ev evs IH]; intros st.
  - exists []. cbn. rewrite app_nil_r. reflexivity.
  - destruct (IH (step st ev)) as [l Hl].
    exists (appended ev ++ l).
    change (run_events st (ev :: evs)) with (run_events (step st ev) evs).
    rewrite Hl, step_messages, app_assoc. reflexivity.
Qed.

(** X8. The transcript is append-only: whatever events follow, the
    transcript of the state they lead to starts with the transcript as it
    was, and only ask-question adds to it. *)
Theorem transcript_append_only (st : State) (evs : list Event) :
  firstn (List.length (messages st)) (messages (run_events st evs))
  = messages st
  /\ (List.length (messages st)
      <= List.length (messages (run_events st evs)))%nat
  /\ forall ev,
       (forall q c o, ev <> AskQuestion q c o) ->
       messages (step st ev) = messages st.
Proof.
  destruct (run_events_messages evs st) as [l Hl]. rewrite Hl.
  split; [| split].
  - rewrite firstn_app, Nat.sub_diag, firstn_all. cbn. apply app_nil_r.
  - rewrite List.length_app. lia.
  - intros ev Hev. rewrite step_messages.
    destruct ev; try apply app_nil_r.
    exfalso. eapply Hev. reflexivity.
Qed.

Lemma transcript_append_only_witness :
  messages (step survey_selected (SelectGroup (Some vision_group)))
  = messages survey_selected.
Proof.
  apply (proj2 (proj2 (transcript_append_only survey_selected []))).
  discriminate.
Defined.

Lemma exchanges_snoc n :
  exchanges n ++ [user; assistant] = exchanges (S n).
Proof.
  induction n as [| n IH]; [reflexivity |].
  cbn [exchanges app]. rewrite IH. reflexivity.
Qed.

Lemma appended_roles ev :
  map Message.role (appended ev) = []
  \/ map Message.role (appended ev) = [user; assistant].
Proof.
  destruct ev; try (left; reflexivity).
  right. cbn. destruct (Net.parsed o); reflexivity.
Qed.

(** X9. With the handlers run to completion one after the other, the
    transcript of every reachable state is a sequence of exchanges: a user
    message, then one assistant message (the answer or the apology), and so
    on; in particular its length is even. *)
Theorem transcript_alternates (st : State) :
  reachable st ->
  exists n, map Message.role (messages st) = exchanges n
            /\ List.length (messages st) = (2 * n)%nat.
Proof.
  induction 1 as [| st ev _ [n [IH IHlen]]].
  - exists O. split; reflexivity.
  - rewrite step_messages, map_app, List.length_app, IH.
    destruct (appended_roles ev) as [Hr | Hr].
    + exists n. rewrite Hr, app_nil_r. split; [reflexivity |].
      apply (f_equal (@List.length Role)) in Hr.
      rewrite length_map in Hr. rewrite Hr. cbn. lia.
    + exists (S n). rewrite Hr, exchanges_snoc. split; [reflexivity |].
      apply (f_equal (@List.length Role)) in Hr.
      rewrite length_map in Hr. rewrite Hr. cbn. lia.
Qed.

Lemma transcript_alternates_witness :
  exists n,
    map Message.role
        (messages (step survey_selected
                     (AskQuestion "What is the sample size?" noon Net.offline)))
    = exchanges n
    /\ List.length
         (messages (step survey_selected
                      (AskQuestion "What is the sample size?" noon Net.offline)))
       = (2 * n)%nat.
Proof.
  apply transcript_alternates.
  do 2 apply reachable_step. apply reachable_initial.
Defined.

Lemma toString_inj a b : toString a = toString b -> a = b.
Proof.
  unfold toString. intros H.
  assert (Hnil : forall z, Z.to_int z <> Decimal.Pos Decimal.Nil
                           /\ Z.to_int z <> Decimal.Neg Decimal.Nil).
  { intros [| p | p]; cbn; split; try discriminate;
      intros [= Hp]; exact (DecimalPos.Unsigned.to_uint_nonnil p Hp). }
  apply DecimalZ.to_int_inj.
  assert (Ha := NilZero.isi _ (proj1 (Hnil a)) (proj2 (Hnil a))).
  assert (Hb := NilZero.isi _ (proj1 (Hnil b)) (proj2 (Hnil b))).
  rewrite H in Ha. rewrite Ha in Hb. injection Hb as Hb. exact Hb.
Qed.

(** X10. When the clock does not go backwards between the question and the
    reply, the two messages that one ask-question appends have different
    identifiers. *)
Theorem exchange_ids_differ (st : State) (q : string) (c : Clock)
    (o : Outcome AskData) (u a : Message.t) :
  now_user c <= now_reply c ->
  messages (step st (AskQuestion q c o)) = messages st ++ [u; a] ->
  Message.id u <> Message.id a.
Proof.
  intros Hclock Hmsgs. rewrite step_messages in Hmsgs.
  apply app_inv_head in Hmsgs. cbn in Hmsgs.
  injection Hmsgs as <- <-.
  destruct (Net.parsed o); cbn; intros Hid%toString_inj; lia.
Qed.

Lemma exchange_ids_differ_witness :
  Message.id (userMessage "What is the sample size?" noon)
  <> Message.id (errorMessage noon).
Proof.
  apply (@exchange_ids_differ survey_selected "What is the sample size?" noon
           Net.offline).
  - cbn. lia.
  - reflexivity.
Defined.

End Transcript.

(** ** The upload zone *)

Section UploadZone.

Import PaperSidebar.

Lemma or_default_nonempty x d :
  d <> "" -> String.eqb (or_default x d) "" = false.
Proof.
  intros Hd. unfold or_default. destruct x as [s |].
  - destruct (String.eqb s "") eqn:E; [| exact E].
    apply String.eqb_neq, Hd.
  - apply String.eqb_neq, Hd.
Qed.

(** X12. A drop that brings no file, or a file whose type is not exactly
    application/pdf, never reaches [onUpload]: the handler only resets the
    dragging flag and displays 'Please upload a PDF file'; it issues no
    request and leaves the upload status as it was. *)
Theorem drop_refused (onUpload : File -> Async Home.OpResult)
    (st : State) (file : option File) :
  (forall f, file = Some f ->
             String.eqb (file_type f) "application/pdf" = false) ->
  requests (trace (handleDrop onUpload file)) = []
  /\ (forall hs, Home.run (trace (handleDrop onUpload file)) hs = hs)
  /\ isDragging (run (trace (handleDrop onUpload file)) st) = false
  /\ error (run (trace (handleDrop onUpload file)) st)
     = Some "Please upload a PDF file"
  /\ errorShown (run (trace (handleDrop onUpload file)) st) = true
  /\ uploadProgress (run (trace (handleDrop onUpload file)) st)
     = uploadProgress st.
Proof.
  intros Hfile. unfold handleDrop.
  destruct file as [f |]; [rewrite (Hfile f eq_refl) |];
    cbn; repeat split.
Qed.

Lemma drop_refused_witness :
  requests (trace (handleDrop (upload_with Net.offline Net.offline) None)) = []
  /\ errorShown (run (trace (handleDrop (upload_with Net.offline Net.offline)
                                        None)) initial) = true.
Proof.
  assert (H : forall f : File, @None File = Some f ->
                String.eqb (file_type f) "application/pdf" = false)
    by (intros f Hf; discriminate Hf).
  pose proof (drop_refused (upload_with Net.offline Net.offline) initial H)
    as [Hreq [_ [_ [_ [Hshown _]]]]].
  split; [exact Hreq | exact Hshown].
Defined.

(** X13. The status the sidebar shows after an upload, [onUpload] being
    [uploadPaper]: when the POST succeeded, the success mark, no error, and a
    timer of 2000 ms that clears the mark; when it failed, no status and an
    error text that is never empty.  In both cases [Home] has left the loading
    state. *)
Theorem upload_feedback (st : State) (f : File)
    (post : Outcome ErrorData) (refetch : Outcome PapersData) :
  (if Net.failed post then
     uploadProgress
       (run (trace (handleFileUpload (upload_with post refetch) f)) st) = None
     /\ errorShown
          (run (trace (handleFileUpload (upload_with post refetch) f)) st)
        = true
   else
     uploadProgress
       (run (trace (handleFileUpload (upload_with post refetch) f)) st)
     = Some "✓ Success!"
     /\ error (run (trace (handleFileUpload (upload_with post refetch) f)) st)
        = None
     /\ last (trace (handleFileUpload (upload_with post refetch) f))
             (SetError None)
        = SetTimeout (SetUploadProgress None) 2000)
  /\ forall hs,
       Home.isLoading
         (Home.run (trace (handleFileUpload (upload_with post refetch) f)) hs)
       = false.
Proof.
  assert (Hne : "Upload failed" <> "") by discriminate.
  unfold Net.failed, handleFileUpload, upload_with, errorShown.
  split; [| intros hs]; unfold_handlers; by_outcomes;
    rewrite ?(or_default_nonempty _ Hne); repeat split;
    match goal with
    | |- context [if String.eqb ?m "" then _ else _] =>
        destruct (String.eqb m "") eqn:E; cbn; rewrite ?E; reflexivity
    end.
Qed.

End UploadZone.

(** ** Submitting a question *)

Section ChatSubmit.

Import Home.

Lemma askQuestion_returns st q c o : snd (askQuestion st q c o) = Ok tt.
Proof. unfold_handlers. by_outcomes; reflexivity. Qed.

(** X14. The chat form submits nothing while a question is loading or when
    the input is blank once trimmed: [onSendMessage] is not called and the
    input is kept.  Otherwise, [onSendMessage] being [askQuestion], the
    question asked is the trimmed input, the transcript gains the exchange
    for it, and the input is emptied. *)
Theorem chat_submit (trim : string -> string) :
  (forall onSendMessage input loading,
      loading = true \/ trim input = "" ->
      trace (ChatInterface.handleSubmit trim onSendMessage input loading) = []
      /\ returned (ChatInterface.handleSubmit trim onSendMessage input loading)
         = Ok input)
  /\ (forall st c o input,
        isLoading st = false -> trim input <> "" ->
        returned (ChatInterface.handleSubmit trim
                    (fun q => askQuestion st q c o) input (isLoading st))
        = Ok ""
        /\ messages
             (run (trace (ChatInterface.handleSubmit trim
                            (fun q => askQuestion st q c o) input
                            (isLoading st))) st)
           = messages st ++ appended (AskQuestion (trim input) c o)).
Proof.
  split.
  - intros onSendMessage input loading Hblocked.
    unfold ChatInterface.handleSubmit, ChatInterface.canSubmit.
    destruct Hblocked as [-> | ->].
    + rewrite andb_false_r. split; reflexivity.
    + split; reflexivity.
  - intros st c o input Hidle Hinput.
    unfold ChatInterface.handleSubmit, ChatInterface.canSubmit.
    rewrite Hidle. apply String.eqb_neq in Hinput. rewrite Hinput.
    cbn [negb andb].
    rewrite <- (step_messages st (AskQuestion (trim input) c o)).
    unfold step, handle.
    destruct (askQuestion st (trim input) c o) as [t [[] | e]] eqn:E.
    + cbn. rewrite app_nil_r. split; reflexivity.
    + exfalso. pose proof (askQuestion_returns st (trim input) c o) as Ha.
      rewrite E in Ha. discriminate Ha.
Qed.

Lemma chat_submit_witness :
  returned (ChatInterface.handleSubmit trim_spaces
              (fun q => askQuestion survey_selected q noon Net.offline)
              "  What is the sample size? " false)
  = Ok ""
  /\ messages
       (run (trace (ChatInterface.handleSubmit trim_spaces
                      (fun q => askQuestion survey_selected q noon Net.offline)
                      "  What is the sample size? " false)) survey_selected)
     = [userMessage "What is the sample size?" noon; errorMessage noon].
Proof.
  apply (proj2 (chat_submit trim_spaces) survey_selected noon Net.offline
               "  What is the sample size? ").
  - reflexivity.
  - discriminate.
Defined.

End ChatSubmit.

(** ** The mode buttons *)

Section ModeButtons.

(** X11. Whatever the mode, exactly one button of the header is the active
    one, the one of that mode; after a click on a button, that button is the
    active one, and a question asked then carries the name of its mode. *)
Theorem one_mode_button_active :
  (forall mode,
      exists b, filter (Header.isActive mode) Header.modes = [b]
                /\ Header.id b = mode)
  /\ (forall st b,
        In b Header.modes ->
        filter (Header.isActive
                  (Home.mode (Home.run (trace (Header.onClick b)) st)))
               Header.modes
        = [b]
        /\ forall q c o,
             map (json_member "mode")
                 (requests
                    (trace (Home.askQuestion
                              (Home.run (trace (Header.onClick b)) st) q c o)))
             = [Some (JString (mode_string (Header.id b)))]).
Proof.
  split.
  - intros []; eexists; split; reflexivity.
  - intros st b Hb. split.
    + destruct Hb as [<- | [<- | [<- | []]]]; reflexivity.
    + intros q c o. rewrite askQuestion_requests. reflexivity.
Qed.

Lemma one_mode_button_active_witness :
  filter (Header.isActive
            (Home.mode
               (Home.run (trace (Header.onClick
                                   (Header.mkButton eli5 "ELI5" "🧒")))
                         Home.initial)))
         Header.modes
  = [Header.mkButton eli5 "ELI5" "🧒"].
Proof.
  apply (proj2 one_mode_button_active Home.initial).
  right. right. left. reflexivity.
Defined.

End ModeButtons.

(** ** The check boxes, continued *)

Section Toggles.

Import GroupModal.

Lemma filter_out_absent prev id :
  ~ In id prev ->
  filter (fun x => negb (String.eqb x id)) prev = prev.
Proof.
  induction prev as [| x prev IH]; intros Hnot; [reflexivity |].
  cbn. destruct (String.eqb_spec x id) as [-> | Hne].
  - exfalso. apply Hnot. left. reflexivity.
  - cbn. rewrite IH; [reflexivity |].
    intros Hin. apply Hnot. right. exact Hin.
Qed.

Lemma filter_out_present prev id :
  NoDup prev -> In id prev ->
  S (List.length (filter (fun x => negb (String.eqb x id)) prev))
  = List.length prev.
Proof.
  induction 1 as [| x prev Hx Hnd IH]; intros Hin; [destruct Hin |].
  cbn. destruct (String.eqb_spec x id) as [-> | Hne].
  - cbn. rewrite filter_out_absent by exact Hx. reflexivity.
  - cbn. rewrite IH; [reflexivity |].
    destruct Hin as [Heq | Hin]; [contradiction | exact Hin].
Qed.

(** X15. On a list without duplicates, a toggle changes the number of
    selected papers by exactly one: one less when the paper was selected, one
    more when it was not. *)
Theorem togglePaper_counts (prev : list string) (id : string) :
  NoDup prev ->
  if includes prev id
  then S (List.length (togglePaper prev id)) = List.length prev
  else List.length (togglePaper prev id) = S (List.length prev).
Proof.
  intros Hnd. unfold togglePaper.
  destruct (includes prev id) eqn:Hinc.
  - apply filter_out_present; [exact Hnd | apply includes_In, Hinc].
  - rewrite List.length_app. cbn. lia.
Qed.

Lemma togglePaper_counts_witness :
  S (List.length (togglePaper ["p1"; "p2"] "p2")) = 2%nat.
Proof.
  apply (@togglePaper_counts ["p1"; "p2"] "p2").
  repeat constructor; cbn; intuition discriminate.
Defined.

Lemma includes_togglePaper prev id x :
  includes (togglePaper prev id) x = xorb (includes prev x) (String.eqb x id).
Proof.
  apply Bool.eq_true_iff_eq. rewrite includes_In, togglePaper_In.
  destruct (String.eqb_spec x id) as [-> | Hne].
  - rewrite xorb_true_r, negb_true_iff, includes_not_In. tauto.
  - rewrite xorb_false_r, includes_In. tauto.
Qed.

Lemma toggles_includes ids :
  forall st x,
    includes (selectedPaperIds (fold_left onToggle ids st)) x
    = xorb (includes (selectedPaperIds st) x)
           (Nat.odd (count_occ string_dec ids x)).
Proof.
  induction ids as [| id ids IH]; intros st x.
  - cbn. rewrite xorb_false_r. reflexivity.
  - cbn [fold_left]. rewrite IH. cbn [onToggle selectedPaperIds].
    rewrite includes_togglePaper. cbn [count_occ].
    destruct (string_dec id x) as [-> | Hne].
    + rewrite String.eqb_refl, Nat.odd_succ, <- Nat.negb_odd.
      destruct (includes (selectedPaperIds st) x),
        (Nat.odd (count_occ string_dec ids x)); reflexivity.
    + assert (E : String.eqb x id = false)
        by (apply String.eqb_neq; congruence).
      rewrite E, xorb_false_r. reflexivity.
Qed.

Lemma toggles_NoDup ids :
  forall st,
    NoDup (selectedPaperIds st) ->
    NoDup (selectedPaperIds (fold_left onToggle ids st)).
Proof.
  induction ids as [| id ids IH]; intros st Hnd; [exact Hnd |].
  cbn [fold_left]. apply IH. cbn [onToggle selectedPaperIds].
  apply togglePaper_NoDup, Hnd.
Qed.

(** X16. The check boxes after any sequence of clicks: starting from a
    selection without duplicates the selection never holds a duplicate, and a
    paper ends selected exactly when it was selected and clicked an even
    number of times or was not and clicked an odd number of times; in a new
    form, exactly when it was clicked an odd number of times. *)
Theorem toggles_parity (ids : list string) :
  (forall st,
      NoDup (selectedPaperIds st) ->
      NoDup (selectedPaperIds (fold_left onToggle ids st)))
  /\ (forall st x,
        includes (selectedPaperIds (fold_left onToggle ids st)) x
        = xorb (includes (selectedPaperIds st) x)
               (Nat.odd (count_occ string_dec ids x)))
  /\ (forall x,
        includes (selectedPaperIds (fold_left onToggle ids (initial None))) x
        = Nat.odd (count_occ string_dec ids x)).
Proof.
  split; [exact (toggles_NoDup ids) | split].
  - exact (toggles_includes ids).
  - intros x. rewrite toggles_includes. reflexivity.
Qed.

Lemma toggles_parity_witness :
  NoDup (selectedPaperIds
           (fold_left onToggle ["p1"; "p2"; "p1"] (initial None))).
Proof.
  apply (proj1 (toggles_parity ["p1"; "p2"; "p1"]) (initial None)).
  constructor.
Defined.

End Toggles.

(** ** Submitting the group form *)

Section GroupForm.

Import GroupModal.

(** X17. A form whose name is blank once trimmed is not submitted:
    neither callback is called, the form shows 'Group name is required', and
    what the user entered is kept. *)
Theorem blank_name_not_submitted (trim : string -> string)
    (onCreateGroup : string -> option string -> list string ->
                     Async Home.OpResult)
    (onClose : Async unit) (st : State) :
  trim (name st) = "" ->
  trace (handleSubmit trim onCreateGroup onClose st) = []
  /\ exists st',
       returned (handleSubmit trim onCreateGroup onClose st) = Ok st'
       /\ error st' = "Group name is required"
       /\ name st' = name st
       /\ description st' = description st
       /\ selectedPaperIds st' = selectedPaperIds st
       /\ isSubmitting st' = isSubmitting st.
Proof.
  intros Hblank. unfold handleSubmit. rewrite Hblank. cbn.
  split; [reflexivity |]. eexists. repeat split.
Qed.

Lemma blank_name_not_submitted_witness :
  trace (handleSubmit trim_spaces (create_with Net.offline Net.offline)
           close_modal (mkState "   " "drafts" ["p1"] false ""))
  = [].
Proof.
  apply (@blank_name_not_submitted trim_spaces
           (create_with Net.offline Net.offline) close_modal
           (mkState "   " "drafts" ["p1"] false "")).
  reflexivity.
Defined.

(** X18. A form with a name, [onCreateGroup] being [createGroup] and
    [onClose] the closing of the modal: when the POST succeeded the form is
    emptied and the modal closed; when it failed the modal stays open, what
    the user entered is kept and a non-empty error text is shown.  In both
    cases the form is no longer submitting. *)
Theorem group_form_outcome (trim : string -> string) (st : State)
    (post : Outcome ErrorData) (refetch : Outcome GroupsData) :
  trim (name st) <> "" ->
  exists st',
    returned (handleSubmit trim (create_with post refetch) close_modal st)
    = Ok st'
    /\ isSubmitting st' = false
    /\ if Net.failed post then
         name st' = name st
         /\ description st' = description st
         /\ selectedPaperIds st' = selectedPaperIds st
         /\ String.eqb (error st') "" = false
         /\ ~ In (SetShowGroupModal false)
                 (trace (handleSubmit trim (create_with post refetch)
                           close_modal st))
       else
         name st' = "" /\ description st' = ""
         /\ selectedPaperIds st' = []
         /\ error st' = ""
         /\ last (trace (handleSubmit trim (create_with post refetch)
                           close_modal st)) (SetError None)
            = SetShowGroupModal false.
Proof.
  intros Hname. apply String.eqb_neq in Hname.
  assert (Hne : "Failed to create group" <> "") by discriminate.
  unfold handleSubmit, create_with, close_modal, returned, Net.failed.
  rewrite Hname. unfold_handlers. by_outcomes;
    eexists; (split; [reflexivity |]); cbn;
    rewrite ?(or_default_nonempty _ Hne);
    repeat split;
    try (intros Hin; cbn in Hin; intuition discriminate);
    match goal with
    | |- context [if String.eqb ?m "" then _ else _] =>
        destruct (String.eqb m "") eqn:E; cbn; rewrite ?E; reflexivity
    end.
Qed.

Lemma group_form_outcome_witness :
  exists st',
    returned (handleSubmit trim_spaces
                (create_with (Net.accepted {| detail := None |}) Net.offline)
                close_modal (mkState " Vision " "" ["p1"; "p2"] false ""))
    = Ok st'
    /\ isSubmitting st' = false
    /\ name st' = "" /\ description st' = ""
    /\ selectedPaperIds st' = []
    /\ error st' = ""
    /\ last (trace (handleSubmit trim_spaces
                      (create_with (Net.accepted {| detail := None |})
                                   Net.offline)
                      close_modal (mkState " Vision " "" ["p1"; "p2"] false "")))
            (SetError None)
       = SetShowGroupModal false.
Proof.
  apply (@group_form_outcome trim_spaces
           (mkState " Vision " "" ["p1"; "p2"] false "")
           (Net.accepted {| detail := None |}) Net.offline).
  discriminate.
Defined.

(** X19. The request a form with a name sends, [onCreateGroup] being
    [createGroup]: a POST to /groups whose body has the trimmed name, the
    paper ids of the selection in its order, and the trimmed
    description, which is left out of the body when it is blank. *)
Theorem group_form_request (trim : string -> string) (st : State)
    (post : Outcome ErrorData) (refetch : Outcome GroupsData) :
  trim (name st) <> "" ->
  exists r rest,
    requests (trace (handleSubmit trim (create_with post refetch)
                       close_modal st)) = r :: rest
    /\ endpoint r = (POST, "/groups")
    /\ json_member "name" r = Some (JString (trim (name st)))
    /\ json_member "paper_ids" r
       = Some (JArray (map JString (selectedPaperIds st)))
    /\ json_member "description" r
       = if String.eqb (trim (description st)) "" then None
         else Some (JString (trim (description st))).
Proof.
  intros Hname. apply String.eqb_neq in Hname.
  unfold handleSubmit, create_with, close_modal, description_argument.
  rewrite Hname.
  destruct (String.eqb (trim (description st)) "");
    unfold_handlers; by_outcomes;
    eexists; eexists; (split; [reflexivity |]); repeat split.
Qed.

Lemma group_form_request_witness :
  exists r rest,
    requests (trace (handleSubmit trim_spaces
                       (create_with Net.offline Net.offline) close_modal
                       (mkState " Vision " "  " ["p2"; "p1"] false "")))
    = r :: rest
    /\ endpoint r = (POST, "/groups")
    /\ json_member "name" r = Some (JString "Vision")
    /\ json_member "paper_ids" r = Some (JArray [JString "p2"; JString "p1"])
    /\ json_member "description" r = None.
Proof.
  apply (@group_form_request trim_spaces
           (mkState " Vision " "  " ["p2"; "p1"] false "")
           Net.offline Net.offline).
  discriminate.
Defined.

End GroupForm.
